(** * Sozi display engine: a shallow embedding of [player/js/display.js]

    The module [sozi.display] keeps, for every layer of the SVG document, a
    geometry object (centre, size, rotation, clip flag) together with two DOM
    handles, and rewrites the DOM attributes of every layer from that
    geometry.

    Conventions of the embedding.
    - A JavaScript number is read as a real number ([R]): the operators
      [+ - * /], [Math.min], [Math.cos], [Math.sin] and [Math.PI] are the
      corresponding operations of the real numbers, and [%] is the truncated
      remainder [js_rem].  This reading is used for the statements that
      give the value an operation stores by the formula of the code, which
      the code computes with the same formula in binary64.
    - A law that rounding can break is not stated in that reading.  The code
      it concerns is written over an arithmetic given as a parameter
      ([Generic]) and read with every result rounded ([Arith.rounded]) and
      in binary64 ([Binary64], on primitive floats): the first gives the
      law up to the rounding errors, the second the inputs at which the
      exact law fails.
    - [exports.layers], a JavaScript object used as a dictionary, is a
      [gmap string Layer] of its own properties; names that the object
      inherits from [Object.prototype] are not keys of a registry.  A
      [for (idLayer in exports.layers)] loop whose body only touches the
      entry of [idLayer] is the [fmap] of its body.
    - A DOM element is the finite map of the attributes written to it, and the
      value of a [transform] attribute is kept as the list of its transform
      functions instead of the concatenated text. *)

From Stdlib Require Import Reals Lra ZArith.
From Stdlib Require PrimFloat FloatOps SpecFloat Uint63.
From stdpp Require Import base option list gmap strings.

Local Open Scope R_scope.

(** ** Numbers *)

(** Truncation towards zero, the quotient of JavaScript's [%]. *)
Definition js_trunc (q : R) : Z :=
  if Rle_dec 0 q then Int_part q else (- Int_part (- q))%Z.

(** [a % n] on numbers: [a - n * q] where [q] is [a / n] truncated towards
    zero, so that the result has the sign of the dividend [a]. *)
Definition js_rem (a n : R) : R := a - n * IZR (js_trunc (a / n)).

(** ** The browser window *)

Record Window := mkWindow {
  innerWidth : R;
  innerHeight : R
}.

(** ** Layer geometry: the object [exports.layers[idLayer].geometry] *)

Module Geometry.

Record t := mk {
  cx : R;
  cy : R;
  width : R;
  height : R;
  rotate : R;
  clip : bool
}.

(** The attribute names of a geometry object. *)
Inductive attr := a_cx | a_cy | a_width | a_height | a_rotate | a_clip.

Definition attr_type (a : attr) : Type :=
  match a with a_clip => bool | _ => R end.

(** [g[a]] *)
Definition get (a : attr) : t -> attr_type a :=
  match a with
  | a_cx => cx | a_cy => cy | a_width => width
  | a_height => height | a_rotate => rotate | a_clip => clip
  end.

(** [g[a] = v] *)
Definition set (a : attr) : attr_type a -> t -> t :=
  match a with
  | a_cx => fun v g => mk v (cy g) (width g) (height g) (rotate g) (clip g)
  | a_cy => fun v g => mk (cx g) v (width g) (height g) (rotate g) (clip g)
  | a_width => fun v g => mk (cx g) (cy g) v (height g) (rotate g) (clip g)
  | a_height => fun v g => mk (cx g) (cy g) (width g) v (rotate g) (clip g)
  | a_rotate => fun v g => mk (cx g) (cy g) (width g) (height g) v (clip g)
  | a_clip => fun v g => mk (cx g) (cy g) (width g) (height g) (rotate g) v
  end.

Definition attrs : list attr :=
  [a_cx; a_cy; a_width; a_height; a_rotate; a_clip].

End Geometry.

(** ** The result object of [getFrameGeometry] *)

Module ViewportFrame.

Record t := mk {
  scale : R;
  width : R;
  height : R;
  x : R;
  y : R
}.

End ViewportFrame.

(** [getFrameGeometry(idLayer)], as a function of the window and of the
    geometry [g = exports.layers[idLayer].geometry] it reads. *)
Definition getFrameGeometry (window : Window) (g : Geometry.t) : ViewportFrame.t :=
  let scale := Rmin (innerWidth window / Geometry.width g)
                    (innerHeight window / Geometry.height g) in
  let width := Geometry.width g * scale in
  let height := Geometry.height g * scale in
  let x := (innerWidth window - width) / 2 in
  let y := (innerHeight window - height) / 2 in
  ViewportFrame.mk scale width height x y.

(** ** The DOM, as far as the module writes to it *)

(** The functions of the transform list written by [update]:
    ["scale(s)"], ["translate(tx,ty)"] and ["rotate(angle,cx,cy)"]. *)
Inductive TransformFunction :=
  | t_scale (s : R)
  | t_translate (tx ty : R)
  | t_rotate (angle cx cy : R).

Inductive AttrValue :=
  | v_number (r : R)
  | v_transform (t : list TransformFunction).

(** An element is the map of its attributes. *)
Abbreviation Element := (gmap string AttrValue).

(** [element.setAttribute(name, value)] *)
Definition setAttribute (name : string) (value : AttrValue) (element : Element)
  : Element := <[name := value]> element.

(** ** The layer registry [exports.layers] *)

Record Layer := mkLayer {
  geometry : Geometry.t;
  svgClipRect : Element;
  svgLayer : Element
}.

Abbreviation Layers := (gmap string Layer).

(** The entry that [onDocumentReady] creates for a layer: the default
    geometry, a fresh [rect] element and the layer's group element. *)
Definition onDocumentReady_layer (group : Element) : Layer :=
  mkLayer (Geometry.mk 0 0 1 1 0 true) ∅ group.

(** [onDocumentReady], restricted to the registry: one entry for every
    identifier of [sozi.document.idLayerList]; [getElementById] gives the
    group element of a layer.  The DOM steps of lines 59 to 72 are not
    part of it: this is the registry when they complete, that is for
    distinct identifiers of child elements of the root. *)
Definition onDocumentReady (idLayerList : list string)
    (getElementById : string -> Element) : Layers :=
  foldl (fun layers idLayer =>
           <[idLayer := onDocumentReady_layer (getElementById idLayer)]> layers)
        ∅ idLayerList.

(** ** [exports.update] *)

(** The body of the loop of [update] for one layer. *)
Definition update_layer (window : Window) (layer : Layer) : Layer :=
  let lg := geometry layer in
  let fg := getFrameGeometry window lg in
  let cr := svgClipRect layer in
  let cr := setAttribute "x"
    (v_number (if Geometry.clip lg then ViewportFrame.x fg else 0)) cr in
  let cr := setAttribute "y"
    (v_number (if Geometry.clip lg then ViewportFrame.y fg else 0)) cr in
  let cr := setAttribute "width"
    (v_number (if Geometry.clip lg then ViewportFrame.width fg
               else innerWidth window)) cr in
  let cr := setAttribute "height"
    (v_number (if Geometry.clip lg then ViewportFrame.height fg
               else innerHeight window)) cr in
  let translateX := - Geometry.cx lg + Geometry.width lg / 2
                    + ViewportFrame.x fg / ViewportFrame.scale fg in
  let translateY := - Geometry.cy lg + Geometry.height lg / 2
                    + ViewportFrame.y fg / ViewportFrame.scale fg in
  mkLayer lg cr
    (setAttribute "transform"
       (v_transform [t_scale (ViewportFrame.scale fg);
                     t_translate translateX translateY;
                     t_rotate (- Geometry.rotate lg)
                              (Geometry.cx lg) (Geometry.cy lg)])
       (svgLayer layer)).

Definition update (window : Window) (layers : Layers) : Layers :=
  update_layer window <$> layers.

(** ** Frames and [exports.showFrame] *)

(** The geometry object of a layer of a frame: any subset of the attributes
    of a layer geometry may be present. *)
Module FrameGeometry.

Record t := mk {
  cx : option R;
  cy : option R;
  width : option R;
  height : option R;
  rotate : option R;
  clip : option bool
}.

(** [fg[a]] when [fg.hasOwnProperty(a)] *)
Definition own (a : Geometry.attr) : t -> option (Geometry.attr_type a) :=
  match a with
  | Geometry.a_cx => cx | Geometry.a_cy => cy
  | Geometry.a_width => width | Geometry.a_height => height
  | Geometry.a_rotate => rotate | Geometry.a_clip => clip
  end.

End FrameGeometry.

Module Frame.

Record layer := mkLayer {
  geometry : FrameGeometry.t
}.

Record t := mk {
  layers : gmap string layer
}.

End Frame.

(** Reading [exports.layers[idLayer].geometry] for an identifier that is not
    registered throws a [TypeError]; the registry is then left as the loop
    had it at that point. *)
Inductive Completion :=
  | Return (layers : Layers)
  | TypeError (layers : Layers).

(** One step of the inner loop: [lg[attr] = fg[attr]] when [fg] has
    [attr]. *)
Definition copy_attr (fg : FrameGeometry.t) (lg : Geometry.t)
    (a : Geometry.attr) : Geometry.t :=
  match FrameGeometry.own a fg with
  | Some v => Geometry.set a v lg
  | None => lg
  end.

(** The inner loop [for (attr in fg)]. *)
Definition copy_geometry (fg : FrameGeometry.t) (lg : Geometry.t)
  : Geometry.t := foldl (copy_attr fg) lg Geometry.attrs.

Definition showFrame_layer (fl : Frame.layer) (layer : Layer) : Layer :=
  mkLayer (copy_geometry (Frame.geometry fl) (geometry layer))
          (svgClipRect layer) (svgLayer layer).

(** The outer loop [for (idLayer in frame.layers)], over the own properties
    of [frame.layers].  The order is that of the list it is given, and a
    layer is looked up among the own properties of the registry. *)
Fixpoint showFrame_loop (entries : list (string * Frame.layer))
    (layers : Layers) : Completion :=
  match entries with
  | [] => Return layers
  | (idLayer, fl) :: rest =>
      match layers !! idLayer with
      | None => TypeError layers
      | Some layer =>
          showFrame_loop rest (<[idLayer := showFrame_layer fl layer]> layers)
      end
  end.

Definition showFrame (window : Window) (frame : Frame.t) (layers : Layers)
  : Completion :=
  match showFrame_loop (map_to_list (Frame.layers frame)) layers with
  | Return layers' => Return (update window layers')
  | TypeError layers' => TypeError layers'
  end.

(** ** [exports.drag] *)

Definition drag_layer (window : Window) (deltaX deltaY : R) (layer : Layer)
  : Layer :=
  let lg := geometry layer in
  let fg := getFrameGeometry window lg in
  let angleRad := Geometry.rotate lg * PI / 180 in
  let cx := Geometry.cx lg
            - (deltaX * cos angleRad - deltaY * sin angleRad)
              / ViewportFrame.scale fg in
  let cy := Geometry.cy lg
            - (deltaX * sin angleRad + deltaY * cos angleRad)
              / ViewportFrame.scale fg in
  mkLayer
    (Geometry.mk cx cy (Geometry.width lg) (Geometry.height lg)
                 (Geometry.rotate lg) false)
    (svgClipRect layer) (svgLayer layer).

Definition drag (window : Window) (deltaX deltaY : R) (layers : Layers)
  : Layers :=
  update window (drag_layer window deltaX deltaY <$> layers).

(** ** [exports.zoom] *)

Definition zoom_layer (factor : R) (layer : Layer) : Layer :=
  let lg := geometry layer in
  mkLayer
    (Geometry.mk (Geometry.cx lg) (Geometry.cy lg)
                 (Geometry.width lg / factor) (Geometry.height lg / factor)
                 (Geometry.rotate lg) (Geometry.clip lg))
    (svgClipRect layer) (svgLayer layer).

Definition zoom_deltaX (window : Window) (factor x : R) : R :=
  (1 - factor) * (x - innerWidth window / 2).

Definition zoom_deltaY (window : Window) (factor y : R) : R :=
  (1 - factor) * (y - innerHeight window / 2).

Definition zoom (window : Window) (factor x y : R) (layers : Layers)
  : Layers :=
  let deltaX := zoom_deltaX window factor x in
  let deltaY := zoom_deltaY window factor y in
  drag window deltaX deltaY (zoom_layer factor <$> layers).

(** ** [exports.rotate] *)

Definition rotate_layer (angle : R) (layer : Layer) : Layer :=
  let lg := geometry layer in
  mkLayer
    (Geometry.mk (Geometry.cx lg) (Geometry.cy lg)
                 (Geometry.width lg) (Geometry.height lg)
                 (js_rem (Geometry.rotate lg + angle) 360) (Geometry.clip lg))
    (svgClipRect layer) (svgLayer layer).

Definition rotate (window : Window) (angle : R) (layers : Layers) : Layers :=
  update window (rotate_layer angle <$> layers).

(** ** Standing assumptions of the specification and a sample registry *)

(** The window has a positive size. *)
Definition positive_window (window : Window) : Prop :=
  0 < innerWidth window /\ 0 < innerHeight window.

(** The visible extent of a layer is positive in both dimensions. *)
Definition positive_size (g : Geometry.t) : Prop :=
  0 < Geometry.width g /\ 0 < Geometry.height g.

(** The registry of a document with the single layer ["layer1"], as
    [onDocumentReady] leaves it. *)
Definition one_layer : Layers := onDocumentReady ["layer1"%string] (fun _ => ∅).

(** A frame giving layer ["layer1"] a new centre abscissa and a new size,
    and nothing else. *)
Definition partial_frame : Frame.t :=
  Frame.mk {[ "layer1"%string :=
              Frame.mkLayer
                (FrameGeometry.mk (Some 10) None (Some 200) (Some 100)
                                  None None) ]}.

(** A frame naming a layer that the document does not have. *)
Definition stray_frame : Frame.t :=
  Frame.mk {[ "layer2"%string :=
              Frame.mkLayer
                (FrameGeometry.mk None None None None None (Some false)) ]}.

(** ** [exports.getDocumentGeometry] *)

(** An [SVGRect], the result of [getBBox()]. *)
Module SVGRect.

Record t := mk {
  x : R;
  y : R;
  width : R;
  height : R
}.

End SVGRect.

(** The object [value] that [getDocumentGeometry] builds from
    [initialBBox]. *)
Definition getDocumentGeometry_value (initialBBox : SVGRect.t) : Frame.layer :=
  Frame.mkLayer
    (FrameGeometry.mk
       (Some (SVGRect.x initialBBox + SVGRect.width initialBBox / 2))
       (Some (SVGRect.y initialBBox + SVGRect.height initialBBox / 2))
       (Some (SVGRect.width initialBBox))
       (Some (SVGRect.height initialBBox))
       (Some 0)
       (Some false)).

(** [getDocumentGeometry()]: the loop over [exports.layers] stores the one
    object [value] under every identifier of the registry.  The module only
    reads frames, so the sharing of [value] is not observable here. *)
Definition getDocumentGeometry (initialBBox : SVGRect.t) (layers : Layers)
  : Frame.t :=
  let value := getDocumentGeometry_value initialBBox in
  Frame.mk
    (foldl (fun (result : gmap string Frame.layer) (entry : string * Layer) =>
              <[entry.1 := value]> result)
           ∅ (map_to_list layers)).

(** ** [resize] *)

(** [resize()], on the root element and the registry: the two attributes of
    the root are set to the size of the window, then [update] runs. *)
Definition resize (window : Window) (svgRoot : Element) (layers : Layers)
  : Element * Layers :=
  let svgRoot := setAttribute "width" (v_number (innerWidth window)) svgRoot in
  let svgRoot := setAttribute "height" (v_number (innerHeight window)) svgRoot in
  (svgRoot, update window layers).

(** ** [exports.getElementGeometry] *)

(** An [SVGMatrix]: the affine map
    [(x, y) |-> (a x + c y + e, b x + d y + f)]. *)
Module SVGMatrix.

Record t := mk {
  a : R;
  b : R;
  c : R;
  d : R;
  e : R;
  f : R
}.

End SVGMatrix.

(** [point.matrixTransform(matrix)] *)
Definition matrixTransform (matrix : SVGMatrix.t) (p : R * R) : R * R :=
  (SVGMatrix.a matrix * p.1 + SVGMatrix.c matrix * p.2 + SVGMatrix.e matrix,
   SVGMatrix.b matrix * p.1 + SVGMatrix.d matrix * p.2 + SVGMatrix.f matrix).

(** What [getElementGeometry] reads of an element: its node name, the
    values [x.baseVal.value], ... of its rectangle attributes (read for a
    [rect] only), its bounding box and its current transformation matrix. *)
Module SVGElement.

Record t := mk {
  nodeName : string;
  x : R;
  y : R;
  width : R;
  height : R;
  getBBox : SVGRect.t;
  getCTM : SVGMatrix.t
}.

End SVGElement.

(** [Math.atan2(y, x)] on real numbers: the angle in [(-PI, PI]] of the
    point [(x, y)], and 0 at the origin. *)
Definition js_atan2 (y x : R) : R :=
  if Rlt_dec 0 x then atan (y / x)
  else if Rlt_dec x 0 then
    (if Rle_dec 0 y then atan (y / x) + PI else atan (y / x) - PI)
  else if Rlt_dec 0 y then PI / 2
  else if Rlt_dec y 0 then - (PI / 2)
  else 0.

(** [getElementGeometry(svgElement)]; the result has no attribute [clip]. *)
Definition getElementGeometry (svgElement : SVGElement.t) : FrameGeometry.t :=
  let matrix := SVGElement.getCTM svgElement in
  let scale := sqrt (SVGMatrix.a matrix * SVGMatrix.a matrix
                     + SVGMatrix.b matrix * SVGMatrix.b matrix) in
  let '(x, y, w, h) :=
    if decide (SVGElement.nodeName svgElement = "rect"%string) then
      (SVGElement.x svgElement, SVGElement.y svgElement,
       SVGElement.width svgElement, SVGElement.height svgElement)
    else
      let b := SVGElement.getBBox svgElement in
      (SVGRect.x b, SVGRect.y b, SVGRect.width b, SVGRect.height b) in
  let c := matrixTransform matrix (x + w / 2, y + h / 2) in
  FrameGeometry.mk
    (Some c.1) (Some c.2) (Some (w * scale)) (Some (h * scale))
    (Some (js_atan2 (SVGMatrix.b matrix) (SVGMatrix.a matrix) * 180 / PI))
    None.

(** The rectangle [(x, y, w, h)] that [getElementGeometry] takes from an
    element: the attributes of a [rect], the bounding box of anything
    else. *)
Definition element_box (svgElement : SVGElement.t) : R * R * R * R :=
  if decide (SVGElement.nodeName svgElement = "rect"%string) then
    (SVGElement.x svgElement, SVGElement.y svgElement,
     SVGElement.width svgElement, SVGElement.height svgElement)
  else
    let b := SVGElement.getBBox svgElement in
    (SVGRect.x b, SVGRect.y b, SVGRect.width b, SVGRect.height b).

(** The frame that gives one layer the geometry of an element. *)
Definition element_frame (idLayer : string) (svgElement : SVGElement.t)
  : Frame.t :=
  Frame.mk {[ idLayer := Frame.mkLayer (getElementGeometry svgElement) ]}.

(** The number held by an attribute of an element. *)
Definition attribute_number (element : Element) (name : string) : option R :=
  match element !! name with
  | Some (v_number r) => Some r
  | _ => None
  end.

(** ** The arithmetic of JavaScript numbers as a parameter *)

(** The definitions above read every operator over the real numbers.  For
    the two places where rounding decides a property, [getFrameGeometry]
    and the body of [rotate], the code is written once more over any
    arithmetic, and read three ways: exactly, with every result rounded,
    and in binary64 itself. *)
Module Arith.

Record t (N : Type) := mk {
  number : Z -> N;     (* an integer literal *)
  add : N -> N -> N;   (* + *)
  sub : N -> N -> N;   (* - *)
  mul : N -> N -> N;   (* * *)
  div : N -> N -> N;   (* / *)
  min : N -> N -> N;   (* Math.min *)
  rem : N -> N -> N    (* % *)
}.

Arguments number {N}.
Arguments add {N}.
Arguments sub {N}.
Arguments mul {N}.
Arguments div {N}.
Arguments min {N}.
Arguments rem {N}.

(** The real numbers, without rounding. *)
Definition exact : t R := mk R IZR Rplus Rminus Rmult Rdiv Rmin js_rem.

(** The real numbers with the result of every [+ - * /] rounded by [rnd].
    [Math.min] returns one of its arguments and [%] is exact in IEEE 754,
    so neither rounds; the literals 2 and 360 are binary64 numbers. *)
Definition rounded (rnd : R -> R) : t R :=
  mk R IZR
     (fun x y => rnd (x + y)) (fun x y => rnd (x - y))
     (fun x y => rnd (x * y)) (fun x y => rnd (x / y))
     Rmin js_rem.

End Arith.

(** Binary64 numbers are Rocq's primitive floats, whose [+ - * /] are the
    IEEE 754 operations that JavaScript uses. *)
Module Binary64.

(** An integer literal. *)
Definition number (z : Z) : PrimFloat.float :=
  if (z <? 0)%Z then PrimFloat.opp (PrimFloat.of_uint63 (Uint63.of_Z (- z)))
  else PrimFloat.of_uint63 (Uint63.of_Z z).

(** [Math.min(x, y)]: NaN if either is NaN, and [-0] is below [+0]. *)
Definition min (x y : PrimFloat.float) : PrimFloat.float :=
  if PrimFloat.is_nan x || PrimFloat.is_nan y then PrimFloat.nan
  else if PrimFloat.ltb x y then x
  else if PrimFloat.ltb y x then y
  else if PrimFloat.get_sign x then x else y.

(** [a % n]: NaN for an infinite dividend or a zero divisor, the dividend
    for an infinite divisor, and otherwise the remainder of the truncated
    division, which is a binary64 number and has the sign of the dividend.
    The mantissas are brought to the common exponent [e] and the remainder
    is taken on integers. *)
Definition rem (a n : PrimFloat.float) : PrimFloat.float :=
  match FloatOps.Prim2SF a, FloatOps.Prim2SF n with
  | SpecFloat.S754_nan, _ | _, SpecFloat.S754_nan => PrimFloat.nan
  | SpecFloat.S754_infinity _, _ => PrimFloat.nan
  | _, SpecFloat.S754_zero _ => PrimFloat.nan
  | SpecFloat.S754_zero _, _ => a
  | SpecFloat.S754_finite _ _ _, SpecFloat.S754_infinity _ => a
  | SpecFloat.S754_finite sa ma ea, SpecFloat.S754_finite _ mn en =>
      let e := Z.min ea en in
      let A := (Z.pos ma * 2 ^ (ea - e))%Z in
      let N := (Z.pos mn * 2 ^ (en - e))%Z in
      match Z.rem A N with
      | Z.pos r => FloatOps.SF2Prim (SpecFloat.S754_finite sa r e)
      | _ => if sa then PrimFloat.neg_zero else PrimFloat.zero
      end
  end.

(** The value of a finite binary64 number multiplied by [2^p], when that
    is an integer. *)
Definition scaled (p : Z) (f : PrimFloat.float) : option Z :=
  match FloatOps.Prim2SF f with
  | SpecFloat.S754_zero _ => Some 0%Z
  | SpecFloat.S754_finite s m e =>
      if (0 <=? e + p)%Z
      then Some ((if s then Z.neg m else Z.pos m) * 2 ^ (e + p))%Z
      else None
  | _ => None
  end.

Definition arithmetic : Arith.t PrimFloat.float :=
  Arith.mk PrimFloat.float number PrimFloat.add PrimFloat.sub PrimFloat.mul
           PrimFloat.div min rem.

End Binary64.

(** The code over an arithmetic [A]. *)
Module Generic.

Module Geometry.

Record t (N : Type) := mk {
  cx : N;
  cy : N;
  width : N;
  height : N;
  rotate : N;
  clip : bool
}.

Arguments mk {N}.
Arguments cx {N}.
Arguments cy {N}.
Arguments width {N}.
Arguments height {N}.
Arguments rotate {N}.
Arguments clip {N}.

End Geometry.

Module ViewportFrame.

Record t (N : Type) := mk {
  scale : N;
  width : N;
  height : N;
  x : N;
  y : N
}.

Arguments mk {N}.
Arguments scale {N}.
Arguments width {N}.
Arguments height {N}.
Arguments x {N}.
Arguments y {N}.

End ViewportFrame.

(** [getFrameGeometry(idLayer)], lines 96 to 105, reading
    [window.innerWidth], [window.innerHeight] and the geometry [g]. *)
Definition getFrameGeometry {N : Type} (A : Arith.t N)
    (innerWidth innerHeight : N) (g : Geometry.t N) : ViewportFrame.t N :=
  let scale := Arith.min A (Arith.div A innerWidth (Geometry.width g))
                           (Arith.div A innerHeight (Geometry.height g)) in
  let width := Arith.mul A (Geometry.width g) scale in
  let height := Arith.mul A (Geometry.height g) scale in
  let x := Arith.div A (Arith.sub A innerWidth width) (Arith.number A 2) in
  let y := Arith.div A (Arith.sub A innerHeight height) (Arith.number A 2) in
  ViewportFrame.mk scale width height x y.

(** The body of the loop of [rotate], lines 291 and 292, on the geometry
    of one layer. *)
Definition rotate_geometry {N : Type} (A : Arith.t N) (angle : N)
    (g : Geometry.t N) : Geometry.t N :=
  let rotate := Arith.add A (Geometry.rotate g) angle in
  let rotate := Arith.rem A rotate (Arith.number A 360) in
  Geometry.mk (Geometry.cx g) (Geometry.cy g) (Geometry.width g)
              (Geometry.height g) rotate (Geometry.clip g).

(** [rotate(angle)] on the geometries of the registry; the [update] that
    follows writes DOM attributes and no geometry. *)
Definition rotate {N : Type} (A : Arith.t N) (angle : N)
    (layers : gmap string (Geometry.t N)) : gmap string (Geometry.t N) :=
  rotate_geometry A angle <$> layers.

End Generic.

(** The geometry and the frame of the reading over the reals, as values of
    the generic records. *)
Definition generic_geometry (g : Geometry.t) : Generic.Geometry.t R :=
  Generic.Geometry.mk (Geometry.cx g) (Geometry.cy g) (Geometry.width g)
                      (Geometry.height g) (Geometry.rotate g) (Geometry.clip g).

Definition generic_frame (fg : ViewportFrame.t) : Generic.ViewportFrame.t R :=
  Generic.ViewportFrame.mk (ViewportFrame.scale fg) (ViewportFrame.width fg)
                           (ViewportFrame.height fg) (ViewportFrame.x fg)
                           (ViewportFrame.y fg).

(** The layer of size 1 x 11 and the layer of rotation 0.1 on which
    binary64 rounding shows. *)
Definition narrow_layer : Generic.Geometry.t PrimFloat.float :=
  Generic.Geometry.mk (Binary64.number 0) (Binary64.number 0)
                      (Binary64.number 1) (Binary64.number 11)
                      (Binary64.number 0) true.

Definition tenth : PrimFloat.float :=
  PrimFloat.div (Binary64.number 1) (Binary64.number 10).

Definition fifth : PrimFloat.float :=
  PrimFloat.div (Binary64.number 2) (Binary64.number 10).

Definition tilted_layers : gmap string (Generic.Geometry.t PrimFloat.float) :=
  {[ "layer1"%string :=
       Generic.Geometry.mk (Binary64.number 0) (Binary64.number 0)
                           (Binary64.number 1) (Binary64.number 1)
                           tenth true ]}.


(** * Properties *)

(** ** The truncated remainder *)

Section Remainder.

Variable n : R.
Hypothesis n_pos : 0 < n.

Lemma js_trunc_0 : js_trunc 0 = 0%Z.
Proof.
  unfold js_trunc. destruct (Rle_dec 0 0) as [_|Hn]; [|lra].
  symmetry. apply Int_part_spec. lra.
Qed.

Lemma js_rem_congruent (a : R) :
  js_rem a n = a - n * IZR (js_trunc (a / n)).
Proof. reflexivity. Qed.

Lemma js_rem_nonneg (a : R) : 0 <= a -> 0 <= js_rem a n < n.
Proof.
  intros Ha. unfold js_rem, js_trunc.
  assert (Hq : a = n * (a / n)) by (field; lra).
  assert (0 <= a / n).
  { unfold Rdiv. apply Rmult_le_pos; [lra|].
    left. apply Rinv_0_lt_compat. lra. }
  destruct (Rle_dec 0 (a / n)) as [_|Hn]; [|lra].
  destruct (base_Int_part (a / n)) as [Hle Hgt].
  set (k := IZR (Int_part (a / n))) in *.
  split; nra.
Qed.

Lemma js_rem_nonpos (a : R) : a <= 0 -> - n < js_rem a n <= 0.
Proof.
  intros Ha.
  destruct (Req_dec a 0) as [->|Hne].
  { unfold js_rem. replace (0 / n) with 0 by (field; lra).
    rewrite js_trunc_0. lra. }
  unfold js_rem, js_trunc.
  assert (Hq : - a = n * (- (a / n))) by (field; lra).
  assert (Hlt : a / n < 0).
  { assert (0 < - (a / n)); [|lra].
    replace (- (a / n)) with (- a / n) by (field; lra).
    apply Rdiv_lt_0_compat; lra. }
  destruct (Rle_dec 0 (a / n)) as [Hn|_]; [lra|].
  destruct (base_Int_part (- (a / n))) as [Hle Hgt].
  rewrite opp_IZR.
  set (k := IZR (Int_part (- (a / n)))) in *.
  split; nra.
Qed.

Lemma js_rem_bounded (a : R) : - n < js_rem a n < n.
Proof.
  destruct (Rle_dec 0 a) as [Ha|Ha].
  - pose proof (js_rem_nonneg a Ha). lra.
  - assert (Ha' : a <= 0) by lra. pose proof (js_rem_nonpos a Ha'). lra.
Qed.

End Remainder.

Lemma js_rem_minus_10 : js_rem (0 + - 10) 360 = - 10.
Proof.
  unfold js_rem, js_trunc.
  destruct (Rle_dec 0 ((0 + - 10) / 360)) as [Hn|_]; [lra|].
  assert (Hk : Int_part (- ((0 + - 10) / 360)) = 0%Z).
  { symmetry. apply Int_part_spec. lra. }
  rewrite Hk. change (- 0)%Z with 0%Z. lra.
Qed.

(** ** Reading the registry after an operation *)

Lemma geometry_update_layer (window : Window) (layer : Layer) :
  geometry (update_layer window layer) = geometry layer.
Proof. reflexivity. Qed.

Lemma lookup_update (window : Window) (layers : Layers) (idLayer : string) :
  update window layers !! idLayer
  = update_layer window <$> layers !! idLayer.
Proof. unfold update. apply lookup_fmap. Qed.

Lemma lookup_rotate (window : Window) (angle : R) (layers : Layers)
    (idLayer : string) :
  rotate window angle layers !! idLayer
  = update_layer window <$> (rotate_layer angle <$> layers !! idLayer).
Proof. unfold rotate. by rewrite lookup_update, lookup_fmap. Qed.

Lemma lookup_drag (window : Window) (deltaX deltaY : R) (layers : Layers)
    (idLayer : string) :
  drag window deltaX deltaY layers !! idLayer
  = update_layer window
      <$> (drag_layer window deltaX deltaY <$> layers !! idLayer).
Proof. unfold drag. by rewrite lookup_update, lookup_fmap. Qed.

Lemma lookup_zoom (window : Window) (factor x y : R) (layers : Layers)
    (idLayer : string) :
  zoom window factor x y layers !! idLayer
  = update_layer window
      <$> (drag_layer window (zoom_deltaX window factor x)
                      (zoom_deltaY window factor y)
             <$> (zoom_layer factor <$> layers !! idLayer)).
Proof. unfold zoom. by rewrite lookup_drag, lookup_fmap. Qed.

(** ** Fit-to-viewport *)

(** The two generic readings over the reals: without rounding the generic
    code is [getFrameGeometry], and the identity is a rounding. *)
Lemma getFrameGeometry_exact (window : Window) (g : Geometry.t) :
  Generic.getFrameGeometry Arith.exact (innerWidth window)
    (innerHeight window) (generic_geometry g)
  = generic_frame (getFrameGeometry window g).
Proof. reflexivity. Qed.

Lemma getFrameGeometry_rounded_id (W H : R) (g : Generic.Geometry.t R) :
  Generic.getFrameGeometry (Arith.rounded (fun x => x)) W H g
  = Generic.getFrameGeometry Arith.exact W H g.
Proof. reflexivity. Qed.

(** A rounding of relative error at most [u] keeps a positive number
    between its multiples by [1 - u] and [1 + u]. *)
Lemma rounded_between (rnd : R -> R) (normal : R -> Prop) (u x : R) :
  (forall y : R, normal y -> Rabs (rnd y - y) <= u * Rabs y) ->
  normal x -> 0 < x ->
  x * (1 - u) <= rnd x <= x * (1 + u).
Proof.
  intros Hrnd Hx Hpos. specialize (Hrnd x Hx).
  rewrite (Rabs_pos_eq x) in Hrnd by lra.
  unfold Rabs in Hrnd. destruct (Rcase_abs (rnd x - x)); nra.
Qed.

(** C1 (as amended): let every [+ - * /] of [getFrameGeometry] be rounded
    with a relative error of at most [u] ([u = 2^-53] in binary64, for
    results in the range [normal] of the normal numbers; [u = 0] without
    rounding).  For a geometry of positive width and height in a window of
    positive width [W] and height [H], the frame has
    [scale = min (W / width) (H / height)], its width and height are the
    geometry's width and height times [scale], and
    [x = (W - width) / 2], [y = (H - height) / 2], each operation rounded.
    The scaled width and height exceed [W] and [H] by no more than the
    factor [(1 + u)^2], and in one dimension at least the scaled size is no
    less than [(1 - u)^2] times the size of the window. *)
Theorem getFrameGeometry_fit_rounded (rnd : R -> R) (normal : R -> Prop)
    (u W H : R) (g : Generic.Geometry.t R) :
  0 <= u < 1 ->
  (forall y : R, normal y -> Rabs (rnd y - y) <= u * Rabs y) ->
  0 < Generic.Geometry.width g -> 0 < Generic.Geometry.height g ->
  0 < W -> 0 < H ->
  normal (W / Generic.Geometry.width g) ->
  normal (H / Generic.Geometry.height g) ->
  normal (Generic.Geometry.width g
          * Rmin (rnd (W / Generic.Geometry.width g))
                 (rnd (H / Generic.Geometry.height g))) ->
  normal (Generic.Geometry.height g
          * Rmin (rnd (W / Generic.Geometry.width g))
                 (rnd (H / Generic.Geometry.height g))) ->
  let fg := Generic.getFrameGeometry (Arith.rounded rnd) W H g in
  Generic.ViewportFrame.scale fg
    = Rmin (rnd (W / Generic.Geometry.width g))
           (rnd (H / Generic.Geometry.height g))
  /\ Generic.ViewportFrame.width fg
     = rnd (Generic.Geometry.width g * Generic.ViewportFrame.scale fg)
  /\ Generic.ViewportFrame.height fg
     = rnd (Generic.Geometry.height g * Generic.ViewportFrame.scale fg)
  /\ Generic.ViewportFrame.x fg
     = rnd (rnd (W - Generic.ViewportFrame.width fg) / 2)
  /\ Generic.ViewportFrame.y fg
     = rnd (rnd (H - Generic.ViewportFrame.height fg) / 2)
  /\ Generic.ViewportFrame.width fg <= W * ((1 + u) * (1 + u))
  /\ Generic.ViewportFrame.height fg <= H * ((1 + u) * (1 + u))
  /\ (W * ((1 - u) * (1 - u)) <= Generic.ViewportFrame.width fg
      \/ H * ((1 - u) * (1 - u)) <= Generic.ViewportFrame.height fg).
Proof.
  intros Hu Hrnd Hw Hh HW HH Nqw Nqh Nw Nh fg. subst fg.
  unfold Generic.getFrameGeometry.
  cbn [Arith.rounded Arith.min Arith.div Arith.mul Arith.sub Arith.number
       Generic.ViewportFrame.scale Generic.ViewportFrame.width
       Generic.ViewportFrame.height Generic.ViewportFrame.x
       Generic.ViewportFrame.y].
  set (w := Generic.Geometry.width g) in *.
  set (h := Generic.Geometry.height g) in *.
  do 5 (split; [reflexivity|]).
  assert (Hqw0 : 0 < W / w) by by apply Rdiv_lt_0_compat.
  assert (Hqh0 : 0 < H / h) by by apply Rdiv_lt_0_compat.
  pose proof (rounded_between rnd normal u (W / w) Hrnd Nqw Hqw0) as Hqw.
  pose proof (rounded_between rnd normal u (H / h) Hrnd Nqh Hqh0) as Hqh.
  assert (HWw : W / w * w = W) by (field; lra).
  assert (HHh : H / h * h = H) by (field; lra).
  set (qw := rnd (W / w)) in *. set (qh := rnd (H / h)) in *.
  assert (Hqwp : 0 < qw) by nra.
  assert (Hqhp : 0 < qh) by nra.
  set (s := Rmin qw qh) in *.
  assert (Hs : 0 < s) by (subst s; by apply Rmin_glb_lt).
  assert (Hsw : s <= qw) by apply Rmin_l.
  assert (Hsh : s <= qh) by apply Rmin_r.
  assert (Hws0 : 0 < w * s) by by apply Rmult_lt_0_compat.
  assert (Hhs0 : 0 < h * s) by by apply Rmult_lt_0_compat.
  pose proof (rounded_between rnd normal u (w * s) Hrnd Nw Hws0) as Hrw.
  pose proof (rounded_between rnd normal u (h * s) Hrnd Nh Hhs0) as Hrh.
  assert (Hws : w * s <= W * (1 + u)) by nra.
  assert (Hhs : h * s <= H * (1 + u)) by nra.
  split; [nra|]. split; [nra|].
  assert (Htight : s = qw \/ s = qh).
  { subst s. unfold Rmin. destruct (Rle_dec qw qh); auto. }
  destruct Htight as [Heq|Heq].
  - left. assert (W * (1 - u) <= w * s) by (rewrite Heq; nra). nra.
  - right. assert (H * (1 - u) <= h * s) by (rewrite Heq; nra). nra.
Qed.

Lemma getFrameGeometry_fit_rounded_witness :
  let fg :=
    Generic.getFrameGeometry (Arith.rounded (fun x => x)) 800 400
      (Generic.Geometry.mk 0 0 200 100 0 true) in
  Generic.ViewportFrame.width fg <= 800 * ((1 + 0) * (1 + 0))
  /\ Generic.ViewportFrame.height fg <= 400 * ((1 + 0) * (1 + 0)).
Proof.
  assert (Hu : 0 <= 0 < 1) by lra.
  assert (Hrnd : forall y : R,
            (fun _ : R => True) y ->
            Rabs ((fun x : R => x) y - y) <= 0 * Rabs y).
  { intros y _. rewrite Rminus_diag, Rabs_R0. lra. }
  assert (Hw : 0 < 200) by lra.
  assert (Hh : 0 < 100) by lra.
  assert (HW : 0 < 800) by lra.
  assert (HH : 0 < 400) by lra.
  destruct (getFrameGeometry_fit_rounded (fun x => x) (fun _ => True) 0
              800 400 (Generic.Geometry.mk 0 0 200 100 0 true)
              Hu Hrnd Hw Hh HW HH I I I I)
    as (_ & _ & _ & _ & _ & Hwidth & Hheight & _).
  split; assumption.
Defined.

(** C1, as stated, fails in binary64: in a window of 800 x 400 the layer of
    size 1 x 11 gets the scale 36.36363636363637, so that [scale * height]
    is 400.00000000000006, above [H], and [scale * width] is not [W]:
    neither product equals the size of the window, and [y] is negative. *)
Lemma getFrameGeometry_binary64_overshoots :
  let fg :=
    Generic.getFrameGeometry Binary64.arithmetic (Binary64.number 800)
      (Binary64.number 400) narrow_layer in
  PrimFloat.leb
    (PrimFloat.mul (Generic.ViewportFrame.scale fg) (Binary64.number 11))
    (Binary64.number 400) = false
  /\ PrimFloat.eqb
       (PrimFloat.mul (Generic.ViewportFrame.scale fg) (Binary64.number 1))
       (Binary64.number 800) = false
  /\ PrimFloat.ltb (Binary64.number 400) (Generic.ViewportFrame.height fg)
     = true
  /\ PrimFloat.ltb (Generic.ViewportFrame.y fg) (Binary64.number 0) = true.
Proof. vm_compute. repeat split. Qed.


(** At that input the binary64 frame is within the bounds of the amended
    law for [u = 2^-53]: with [v = height * 2^60],
    [400 (1 - u)^2 <= height <= 400 (1 + u)^2]. *)
Lemma getFrameGeometry_binary64_within_rounding :
  exists v : Z,
    Binary64.scaled 60
      (Generic.ViewportFrame.height
         (Generic.getFrameGeometry Binary64.arithmetic (Binary64.number 800)
            (Binary64.number 400) narrow_layer)) = Some v
    /\ (400 * 2 ^ 60 * (2 ^ 53 - 1) ^ 2 <= v * 2 ^ 106
        <= 400 * 2 ^ 60 * (2 ^ 53 + 1) ^ 2)%Z.
Proof. eexists. split; [vm_compute; reflexivity|]. vm_compute. by split. Qed.

Lemma getFrameGeometry_example_value (cx cy : R) :
  getFrameGeometry (mkWindow 800 400) (Geometry.mk cx cy 200 100 0 true)
  = ViewportFrame.mk 4 800 400 0 0.
Proof.
  unfold getFrameGeometry. cbn.
  assert (Hs : Rmin (800 / 200) (400 / 100) = 4).
  { replace (800 / 200) with 4 by lra. replace (400 / 100) with 4 by lra.
    unfold Rmin. destruct (Rle_dec 4 4); lra. }
  rewrite Hs. f_equal; lra.
Qed.

(** C2 (as amended): a layer of size 200 x 100, rotation 0 and
    [clip = true] in a window of 800 x 400 has the frame
    [{scale = 4, width = 800, height = 400, x = 0, y = 0}]: both quotients
    [800 / 200] and [400 / 100] are 4, so the layer fills the window. *)
Theorem getFrameGeometry_example (cx cy : R) :
  getFrameGeometry (mkWindow 800 400) (Geometry.mk cx cy 200 100 0 true)
  = ViewportFrame.mk 4 800 400 0 0.
Proof. apply getFrameGeometry_example_value. Qed.

(** C2, as stated, fails: the frame of that layer is not
    [{scale = 2, width = 400, height = 200, x = 200, y = 100}]. *)
Lemma getFrameGeometry_example_not_2 :
  getFrameGeometry (mkWindow 800 400) (Geometry.mk 0 0 200 100 0 true)
  <> ViewportFrame.mk 2 400 200 200 100.
Proof.
  rewrite getFrameGeometry_example_value. intros Heq.
  apply (f_equal ViewportFrame.scale) in Heq. cbn in Heq. lra.
Qed.

(** ** Rotation *)

Lemma lookup_one_layer :
  one_layer !! "layer1"%string = Some (onDocumentReady_layer ∅).
Proof. unfold one_layer, onDocumentReady. cbn [foldl]. apply lookup_insert_eq. Qed.

(** C3 (as amended): after [rotate(angle)] the stored rotation of every layer
    is the truncated remainder of [old + angle] by 360.  It differs from
    [old + angle] by a multiple of 360, lies strictly between -360 and 360,
    and has the sign of [old + angle]: it is in [[0, 360)] when
    [old + angle >= 0] and in [(-360, 0]] when [old + angle <= 0]. *)
Theorem rotate_stored_rotation (window : Window) (angle : R) (layers : Layers)
    (idLayer : string) (layer : Layer) :
  layers !! idLayer = Some layer ->
  exists layer',
    rotate window angle layers !! idLayer = Some layer'
    /\ Geometry.rotate (geometry layer')
       = js_rem (Geometry.rotate (geometry layer) + angle) 360
    /\ (exists k : Z,
          Geometry.rotate (geometry layer')
          = Geometry.rotate (geometry layer) + angle - 360 * IZR k)
    /\ - 360 < Geometry.rotate (geometry layer') < 360
    /\ (0 <= Geometry.rotate (geometry layer) + angle ->
        0 <= Geometry.rotate (geometry layer') < 360)
    /\ (Geometry.rotate (geometry layer) + angle <= 0 ->
        - 360 < Geometry.rotate (geometry layer') <= 0).
Proof.
  intros Hl. rewrite lookup_rotate, Hl. eexists. split; [reflexivity|].
  cbn. assert (H360 : 0 < 360) by lra.
  split; [reflexivity|].
  split; [eexists; apply js_rem_congruent|].
  split; [by apply js_rem_bounded|].
  split; intros Hs; [by apply js_rem_nonneg | by apply js_rem_nonpos].
Qed.

Lemma rotate_stored_rotation_witness :
  exists layer',
    rotate (mkWindow 800 400) 90 one_layer !! "layer1"%string = Some layer'
    /\ - 360 < Geometry.rotate (geometry layer') < 360.
Proof.
  destruct (rotate_stored_rotation (mkWindow 800 400) 90 one_layer
              "layer1"%string (onDocumentReady_layer ∅) lookup_one_layer)
    as (layer' & Hl & _ & _ & Hb & _).
  exists layer'. split; assumption.
Defined.

(** C3, as stated, fails: [rotate(-10)] on a layer of rotation 0 stores
    the rotation -10, which is outside [[0, 360)]. *)
Lemma rotate_negative_rotation :
  exists layer',
    rotate (mkWindow 800 400) (- 10) one_layer !! "layer1"%string = Some layer'
    /\ Geometry.rotate (geometry layer') = - 10
    /\ ~ (0 <= Geometry.rotate (geometry layer') < 360).
Proof.
  rewrite lookup_rotate, lookup_one_layer. eexists. split; [reflexivity|].
  cbn. rewrite js_rem_minus_10. split; [reflexivity | lra].
Qed.

(** C4 (as amended): let the two additions of [rotate(a)] and [rotate(-a)]
    be rounded with a relative error of at most [u] ([u = 2^-53] in
    binary64, [u = 0] without rounding).  After the two calls the centre, the
    size and the clip flag of every layer are as they were, and its rotation
    differs from the original rotation [r], modulo 360, by no more than the
    two rounding errors: for an integer [k],
    [|r'' - (r + 360 k)| <= u * (|r + a| + |r' - a|)], where [r'] is the
    rotation after the first call. *)
Theorem rotate_round_trip_rounded (rnd : R -> R) (normal : R -> Prop)
    (u a : R) (layers : gmap string (Generic.Geometry.t R))
    (idLayer : string) (g : Generic.Geometry.t R) :
  (forall y : R, normal y -> Rabs (rnd y - y) <= u * Rabs y) ->
  layers !! idLayer = Some g ->
  normal (Generic.Geometry.rotate g + a) ->
  normal (js_rem (rnd (Generic.Geometry.rotate g + a)) 360 + - a) ->
  exists g2 : Generic.Geometry.t R,
    Generic.rotate (Arith.rounded rnd) (- a)
      (Generic.rotate (Arith.rounded rnd) a layers) !! idLayer = Some g2
    /\ (exists k : Z,
          Rabs (Generic.Geometry.rotate g2
                - (Generic.Geometry.rotate g + 360 * IZR k))
          <= u * (Rabs (Generic.Geometry.rotate g + a)
                  + Rabs (js_rem (rnd (Generic.Geometry.rotate g + a)) 360
                          + - a)))
    /\ Generic.Geometry.cx g2 = Generic.Geometry.cx g
    /\ Generic.Geometry.cy g2 = Generic.Geometry.cy g
    /\ Generic.Geometry.width g2 = Generic.Geometry.width g
    /\ Generic.Geometry.height g2 = Generic.Geometry.height g
    /\ Generic.Geometry.clip g2 = Generic.Geometry.clip g.
Proof.
  intros Hrnd Hl N1 N2. unfold Generic.rotate.
  rewrite !lookup_fmap, Hl. eexists. split; [reflexivity|].
  unfold Generic.rotate_geometry.
  cbn [Arith.rounded Arith.add Arith.rem Arith.number
       Generic.Geometry.cx Generic.Geometry.cy Generic.Geometry.width
       Generic.Geometry.height Generic.Geometry.rotate Generic.Geometry.clip].
  split; [|by repeat split].
  set (r := Generic.Geometry.rotate g) in *.
  set (r1 := js_rem (rnd (r + a)) 360) in *.
  pose proof (Hrnd (r + a) N1) as He1.
  pose proof (Hrnd (r1 + - a) N2) as He2.
  set (k1 := js_trunc (rnd (r + a) / 360)).
  set (k2 := js_trunc (rnd (r1 + - a) / 360)).
  exists (- (k1 + k2))%Z.
  assert (Herr : js_rem (rnd (r1 + - a)) 360 - (r + 360 * IZR (- (k1 + k2)))
                 = (rnd (r + a) - (r + a))
                   + (rnd (r1 + - a) - (r1 + - a))).
  { rewrite opp_IZR, plus_IZR. subst r1 k1 k2. unfold js_rem. ring. }
  rewrite Herr.
  eapply Rle_trans; [apply Rabs_triang|]. lra.
Qed.

Lemma rotate_round_trip_rounded_witness :
  exists g2 : Generic.Geometry.t R,
    Generic.rotate (Arith.rounded (fun x => x)) (- 90)
      (Generic.rotate (Arith.rounded (fun x => x)) 90
         {[ "layer1"%string := Generic.Geometry.mk 0 0 1 1 350 true ]})
      !! "layer1"%string = Some g2
    /\ Generic.Geometry.cx g2 = 0
    /\ Generic.Geometry.clip g2 = true.
Proof.
  assert (Hrnd : forall y : R,
            (fun _ : R => True) y ->
            Rabs ((fun x : R => x) y - y) <= 0 * Rabs y).
  { intros y _. rewrite Rminus_diag, Rabs_R0. lra. }
  destruct (rotate_round_trip_rounded (fun x => x) (fun _ => True) 0 90
              {[ "layer1"%string := Generic.Geometry.mk 0 0 1 1 350 true ]}
              "layer1"%string (Generic.Geometry.mk 0 0 1 1 350 true)
              Hrnd (lookup_singleton_eq _ _) I I)
    as (g2 & Hl & _ & Hcx & _ & _ & _ & Hclip).
  exists g2. split; [exact Hl|]. split; assumption.
Defined.

(** C4, as stated, fails in binary64: on a layer of rotation 0.1,
    [rotate(0.2)] followed by [rotate(-0.2)] stores 0.10000000000000003,
    which is above 0.1 and below 1, hence not 0.1 plus a multiple of
    360. *)
Lemma rotate_binary64_round_trip_drifts :
  exists g2 : Generic.Geometry.t PrimFloat.float,
    Generic.rotate Binary64.arithmetic (PrimFloat.opp fifth)
      (Generic.rotate Binary64.arithmetic fifth tilted_layers)
      !! "layer1"%string = Some g2
    /\ PrimFloat.eqb (Generic.Geometry.rotate g2) tenth = false
    /\ PrimFloat.ltb tenth (Generic.Geometry.rotate g2) = true
    /\ PrimFloat.ltb (Generic.Geometry.rotate g2) (Binary64.number 1) = true.
Proof.
  unfold Generic.rotate, tilted_layers.
  rewrite !lookup_fmap, lookup_singleton_eq.
  eexists. split; [reflexivity|]. vm_compute. repeat split.
Qed.

(** At that input the drift is within the bound of the amended law for
    [u = 2^-53]: with every value multiplied by [2^60],
    [r'' - r <= u * ((r + a) + (r' - a))]. *)
Lemma rotate_binary64_within_rounding :
  exists r a r1 r2 : Z,
    Binary64.scaled 60 tenth = Some r
    /\ Binary64.scaled 60 fifth = Some a
    /\ Binary64.scaled 60
         (Generic.Geometry.rotate
            (Generic.rotate_geometry Binary64.arithmetic fifth
               (Generic.Geometry.mk (Binary64.number 0) (Binary64.number 0)
                  (Binary64.number 1) (Binary64.number 1) tenth true)))
       = Some r1
    /\ Binary64.scaled 60
         (Generic.Geometry.rotate
            (Generic.rotate_geometry Binary64.arithmetic (PrimFloat.opp fifth)
               (Generic.rotate_geometry Binary64.arithmetic fifth
                  (Generic.Geometry.mk (Binary64.number 0)
                     (Binary64.number 0) (Binary64.number 1)
                     (Binary64.number 1) tenth true))))
       = Some r2
    /\ (0 < r2 - r /\ (r2 - r) * 2 ^ 53 <= (r + a) + (r1 - a))%Z.
Proof.
  do 4 eexists. do 4 (split; [vm_compute; reflexivity|]).
  vm_compute. by split.
Qed.

(** ** Dragging *)

(** C7: [drag(dx, dy)] sets [clip = false] on every registered layer,
    whatever the flag was, and moves the centre of the layer by the
    displacement rotated by the layer's rotation [r = rotate * PI / 180] and
    divided by the layer's fit scale:
    [cx -= (dx * cos r - dy * sin r) / scale] and
    [cy -= (dx * sin r + dy * cos r) / scale].  Size and rotation are kept,
    and the registry keeps its layers. *)
Theorem drag_layer_geometry (window : Window) (dx dy : R) (layers : Layers) :
  dom (drag window dx dy layers) = dom layers
  /\ forall (idLayer : string) (layer : Layer),
       layers !! idLayer = Some layer ->
       exists layer',
         drag window dx dy layers !! idLayer = Some layer'
         /\ Geometry.clip (geometry layer') = false
         /\ (let r := Geometry.rotate (geometry layer) * PI / 180 in
             let scale :=
               ViewportFrame.scale (getFrameGeometry window (geometry layer)) in
             Geometry.cx (geometry layer')
             = Geometry.cx (geometry layer) - (dx * cos r - dy * sin r) / scale
             /\ Geometry.cy (geometry layer')
                = Geometry.cy (geometry layer)
                  - (dx * sin r + dy * cos r) / scale)
         /\ Geometry.width (geometry layer') = Geometry.width (geometry layer)
         /\ Geometry.height (geometry layer') = Geometry.height (geometry layer)
         /\ Geometry.rotate (geometry layer') = Geometry.rotate (geometry layer).
Proof.
  split.
  - unfold drag, update. by rewrite !dom_fmap_L.
  - intros idLayer layer Hl. rewrite lookup_drag, Hl.
    eexists. split; [reflexivity|]. cbn. by repeat split.
Qed.

(** ** Zooming *)

(** C5 (as amended): in a window of positive size, [zoom(1, x, y)] leaves
    the centre, the size and the rotation of every layer of positive size
    unchanged, and sets its clip flag to [false]. *)
Theorem zoom_1_geometry (window : Window) (x y : R) (layers : Layers)
    (idLayer : string) (layer : Layer) :
  positive_window window ->
  positive_size (geometry layer) ->
  layers !! idLayer = Some layer ->
  exists layer',
    zoom window 1 x y layers !! idLayer = Some layer'
    /\ Geometry.cx (geometry layer') = Geometry.cx (geometry layer)
    /\ Geometry.cy (geometry layer') = Geometry.cy (geometry layer)
    /\ Geometry.width (geometry layer') = Geometry.width (geometry layer)
    /\ Geometry.height (geometry layer') = Geometry.height (geometry layer)
    /\ Geometry.rotate (geometry layer') = Geometry.rotate (geometry layer)
    /\ Geometry.clip (geometry layer') = false.
Proof.
  intros _ _ Hl. rewrite lookup_zoom, Hl. eexists. split; [reflexivity|].
  cbn. unfold zoom_deltaX, zoom_deltaY.
  repeat split; try (unfold Rdiv; ring); apply Rdiv_1_r.
Qed.

Lemma zoom_1_geometry_witness :
  positive_window (mkWindow 800 400)
  /\ positive_size (geometry (onDocumentReady_layer ∅))
  /\ exists layer',
       zoom (mkWindow 800 400) 1 400 200 one_layer !! "layer1"%string
       = Some layer'
       /\ Geometry.cx (geometry layer') = 0
       /\ Geometry.clip (geometry layer') = false.
Proof.
  assert (HW : positive_window (mkWindow 800 400)) by (split; cbn; lra).
  assert (Hg : positive_size (geometry (onDocumentReady_layer ∅)))
    by (split; cbn; lra).
  split; [exact HW|]. split; [exact Hg|].
  destruct (zoom_1_geometry (mkWindow 800 400) 400 200 one_layer
              "layer1"%string (onDocumentReady_layer ∅) HW Hg lookup_one_layer)
    as (layer' & Hl & Hcx & _ & _ & _ & _ & Hclip).
  exists layer'. split; [assumption|]. split; assumption.
Defined.

(** C5, as stated, fails: [zoom(1, x, y)] is not a no-op, it clears the
    clip flag that [onDocumentReady] had set. *)
Lemma zoom_1_clears_clip :
  exists layer layer',
    one_layer !! "layer1"%string = Some layer
    /\ zoom (mkWindow 800 400) 1 400 200 one_layer !! "layer1"%string
       = Some layer'
    /\ Geometry.clip (geometry layer) = true
    /\ Geometry.clip (geometry layer') = false.
Proof.
  exists (onDocumentReady_layer ∅). eexists.
  split; [apply lookup_one_layer|].
  rewrite lookup_zoom, lookup_one_layer. by repeat split.
Qed.

(** C8: for a positive factor, [zoom(factor, x, y)] is [drag] with
    [deltaX = (1 - factor) * (x - W / 2)] and
    [deltaY = (1 - factor) * (y - H / 2)], applied to the registry in which
    the width and the height of every layer have been divided by [factor]:
    the stored width and height become [width / factor] and
    [height / factor], and the centre moves by that displacement, rotated
    and divided by the fit scale of the new size.  With the window 800 x 400,
    [zoom(2, 400, 200)] has [deltaX = 0] and [deltaY = 0] and halves the
    width and the height of every layer. *)
Theorem zoom_divides_then_drags (window : Window) (factor x y : R)
    (layers : Layers) :
  0 < factor ->
  zoom window factor x y layers
  = drag window ((1 - factor) * (x - innerWidth window / 2))
                ((1 - factor) * (y - innerHeight window / 2))
                (zoom_layer factor <$> layers)
  /\ (forall (idLayer : string) (layer : Layer),
        layers !! idLayer = Some layer ->
        exists layer',
          zoom window factor x y layers !! idLayer = Some layer'
          /\ Geometry.width (geometry layer')
             = Geometry.width (geometry layer) / factor
          /\ Geometry.height (geometry layer')
             = Geometry.height (geometry layer) / factor
          /\ (let r := Geometry.rotate (geometry layer) * PI / 180 in
              let dX := (1 - factor) * (x - innerWidth window / 2) in
              let dY := (1 - factor) * (y - innerHeight window / 2) in
              let scale :=
                Rmin (innerWidth window
                      / (Geometry.width (geometry layer) / factor))
                     (innerHeight window
                      / (Geometry.height (geometry layer) / factor)) in
              Geometry.cx (geometry layer')
              = Geometry.cx (geometry layer)
                - (dX * cos r - dY * sin r) / scale
              /\ Geometry.cy (geometry layer')
                 = Geometry.cy (geometry layer)
                   - (dX * sin r + dY * cos r) / scale))
  /\ (innerWidth window = 800 -> innerHeight window = 400 ->
      factor = 2 -> x = 400 -> y = 200 ->
      zoom_deltaX window factor x = 0
      /\ zoom_deltaY window factor y = 0
      /\ forall (idLayer : string) (layer : Layer),
           layers !! idLayer = Some layer ->
           exists layer',
             zoom window factor x y layers !! idLayer = Some layer'
             /\ Geometry.width (geometry layer')
                = Geometry.width (geometry layer) / 2
             /\ Geometry.height (geometry layer')
                = Geometry.height (geometry layer) / 2).
Proof.
  intros _. split; [reflexivity|]. split.
  - intros idLayer layer Hl. rewrite lookup_zoom, Hl.
    eexists. split; [reflexivity|]. cbn. by repeat split.
  - intros HW HH -> -> ->. unfold zoom_deltaX, zoom_deltaY.
    rewrite HW, HH. split; [lra|]. split; [lra|].
    intros idLayer layer Hl. rewrite lookup_zoom, Hl.
    eexists. split; [reflexivity|]. cbn. by split.
Qed.

Lemma zoom_divides_then_drags_witness :
  0 < 2
  /\ zoom_deltaX (mkWindow 800 400) 2 400 = 0
  /\ zoom_deltaY (mkWindow 800 400) 2 200 = 0
  /\ exists layer',
       zoom (mkWindow 800 400) 2 400 200 one_layer !! "layer1"%string
       = Some layer'
       /\ Geometry.width (geometry layer') = 1 / 2
       /\ Geometry.height (geometry layer') = 1 / 2.
Proof.
  assert (H2 : 0 < 2) by lra. split; [exact H2|].
  destruct (zoom_divides_then_drags (mkWindow 800 400) 2 400 200 one_layer H2)
    as (_ & _ & Hex).
  destruct (Hex eq_refl eq_refl eq_refl eq_refl eq_refl) as (HdX & HdY & Hl).
  split; [exact HdX|]. split; [exact HdY|].
  exact (Hl "layer1"%string (onDocumentReady_layer ∅) lookup_one_layer).
Defined.

(** C9: [zoom(factor, x, y)] sets [clip = false] on every registered layer,
    for every factor and pivot, also when the compensating displacement is
    [(0, 0)]. *)
Theorem zoom_clears_clip (window : Window) (factor x y : R) (layers : Layers) :
  dom (zoom window factor x y layers) = dom layers
  /\ map_Forall (fun _ layer' => Geometry.clip (geometry layer') = false)
                (zoom window factor x y layers).
Proof.
  split.
  - unfold zoom, drag, update. by rewrite !dom_fmap_L.
  - intros idLayer layer'. rewrite lookup_zoom.
    destruct (layers !! idLayer) as [layer|]; [|discriminate].
    cbn. by intros [= <-].
Qed.

(** ** Updating the DOM *)

Lemma geometry_update (window : Window) (layers : Layers) :
  geometry <$> update window layers = geometry <$> layers.
Proof.
  unfold update. rewrite <- map_fmap_compose.
  apply map_fmap_ext. intros idLayer layer _. reflexivity.
Qed.

Lemma geometry_iter_update (window : Window) (layers : Layers) (n : nat) :
  geometry <$> Nat.iter n (update window) layers = geometry <$> layers.
Proof.
  induction n as [|n IH]; [reflexivity|].
  by rewrite Nat.iter_succ, geometry_update.
Qed.

Lemma dom_iter_update (window : Window) (layers : Layers) (n : nat) :
  dom (Nat.iter n (update window) layers) = dom layers.
Proof.
  induction n as [|n IH]; [reflexivity|].
  rewrite Nat.iter_succ. unfold update at 1. by rewrite dom_fmap_L.
Qed.

(** A second call writes the values that the first call wrote. *)
Lemma update_layer_idempotent (window : Window) (layer : Layer) :
  update_layer window (update_layer window layer) = update_layer window layer.
Proof.
  unfold update_layer at 1. rewrite geometry_update_layer.
  unfold update_layer. cbn [svgClipRect svgLayer geometry].
  unfold setAttribute. f_equal.
  - apply map_eq. intros name. rewrite !lookup_insert.
    repeat case_decide; reflexivity.
  - apply map_eq. intros name. rewrite !lookup_insert.
    repeat case_decide; reflexivity.
Qed.

Lemma update_idempotent (window : Window) (layers : Layers) :
  update window (update window layers) = update window layers.
Proof.
  unfold update. rewrite <- map_fmap_compose.
  apply map_fmap_ext. intros idLayer layer _. apply update_layer_idempotent.
Qed.

(** C10: [update()] leaves the stored geometry of every layer unchanged,
    after any number of calls, and keeps the set of layers.  One call only
    writes the attributes [x], [y], [width] and [height] of the clip
    rectangle and the attribute [transform] of the layer group: every other
    attribute of the two elements is as before. *)
Theorem update_keeps_geometry (window : Window) (layers : Layers) (n : nat) :
  dom (Nat.iter n (update window) layers) = dom layers
  /\ geometry <$> Nat.iter n (update window) layers = geometry <$> layers
  /\ forall (idLayer : string) (layer : Layer),
       layers !! idLayer = Some layer ->
       exists layer',
         update window layers !! idLayer = Some layer'
         /\ geometry layer' = geometry layer
         /\ (forall name : string,
               name ∉ ["x"; "y"; "width"; "height"]%string ->
               svgClipRect layer' !! name = svgClipRect layer !! name)
         /\ (forall name : string,
               name ≠ "transform"%string ->
               svgLayer layer' !! name = svgLayer layer !! name).
Proof.
  split; [apply dom_iter_update|].
  split; [apply geometry_iter_update|].
  intros idLayer layer Hl. rewrite lookup_update, Hl.
  eexists. split; [reflexivity|]. split; [reflexivity|].
  cbn. unfold setAttribute. split.
  - intros name Hname.
    rewrite !lookup_insert_ne; [reflexivity|..];
      intros <-; apply Hname; set_solver.
  - intros name Hname. by rewrite lookup_insert_ne.
Qed.

(** ** Showing a frame *)

(** The inner loop copies the attributes that the frame has and keeps the
    others. *)
Lemma get_copy_geometry (fg : FrameGeometry.t) (lg : Geometry.t)
    (a : Geometry.attr) :
  Geometry.get a (copy_geometry fg lg)
  = default (Geometry.get a lg) (FrameGeometry.own a fg).
Proof.
  destruct fg as [[?|] [?|] [?|] [?|] [?|] [?|]], a; reflexivity.
Qed.

(** The outer loop, when every identifier it meets is registered. *)
Lemma showFrame_loop_registered (entries : list (string * Frame.layer)) :
  forall layers : Layers,
    NoDup entries.*1 ->
    (forall idLayer fl, (idLayer, fl) ∈ entries -> is_Some (layers !! idLayer)) ->
    exists layers' : Layers,
      showFrame_loop entries layers = Return layers'
      /\ (forall idLayer fl,
            (idLayer, fl) ∈ entries ->
            layers' !! idLayer = showFrame_layer fl <$> layers !! idLayer)
      /\ (forall idLayer,
            idLayer ∉ entries.*1 -> layers' !! idLayer = layers !! idLayer).
Proof.
  induction entries as [|[id0 fl0] rest IH]; intros layers Hnd Hreg.
  - exists layers. split; [reflexivity|]. split; [|done].
    intros idLayer fl Hin. by apply elem_of_nil in Hin.
  - rewrite fmap_cons in Hnd. apply NoDup_cons in Hnd as [Hnotin Hnd].
    destruct (Hreg id0 fl0) as [l0 Hl0]; [by left|].
    cbn [showFrame_loop]. rewrite Hl0.
    destruct (IH (<[id0 := showFrame_layer fl0 l0]> layers) Hnd)
      as (layers' & Hrun & Hin & Hout).
    { intros idLayer fl Hmem. rewrite lookup_insert_is_Some.
      destruct (decide (id0 = idLayer)) as [->|Hne]; [by left|].
      right. split; [done|]. apply (Hreg idLayer fl). by right. }
    exists layers'. split; [exact Hrun|]. split.
    + intros idLayer fl Hmem. apply elem_of_cons in Hmem as [[= -> ->]|Hmem].
      * rewrite (Hout id0 Hnotin), lookup_insert_eq, Hl0. reflexivity.
      * rewrite (Hin idLayer fl Hmem).
        assert (Hne : id0 <> idLayer).
        { intros ->. apply Hnotin. apply list_elem_of_fmap.
          by exists (idLayer, fl). }
        by rewrite lookup_insert_ne.
    + intros idLayer Hnot. rewrite fmap_cons in Hnot.
      apply not_elem_of_cons in Hnot as [Hne Hnot].
      rewrite (Hout idLayer Hnot). by rewrite lookup_insert_ne.
Qed.

(** The outer loop throws as soon as it meets an identifier that is not
    registered. *)
Lemma showFrame_loop_stray (entries : list (string * Frame.layer)) :
  forall layers : Layers,
    (exists idLayer fl, (idLayer, fl) ∈ entries /\ layers !! idLayer = None) ->
    exists layers' : Layers, showFrame_loop entries layers = TypeError layers'.
Proof.
  induction entries as [|[id0 fl0] rest IH];
    intros layers (idLayer & fl & Hmem & Hnone).
  - by apply elem_of_nil in Hmem.
  - cbn [showFrame_loop]. destruct (layers !! id0) as [l0|] eqn:Hl0; [|eauto].
    apply IH. apply elem_of_cons in Hmem as [[= -> ->]|Hmem]; [congruence|].
    exists idLayer, fl. split; [done|].
    rewrite lookup_insert_ne; [done|]. congruence.
Qed.

(** C6: when every layer identifier of the frame [f] is registered,
    [showFrame(f)] returns and, for every layer named in [f.layers], every
    attribute present in the frame's geometry of the layer is the value of
    that attribute in the stored geometry afterwards, while every attribute
    absent from it keeps its previous value; the stored geometry of a layer
    that [f] does not name is unchanged, and the registry keeps its
    layers. *)
Theorem showFrame_copies_attributes (window : Window) (frame : Frame.t)
    (layers : Layers) :
  (forall idLayer : string,
     is_Some (Frame.layers frame !! idLayer) -> is_Some (layers !! idLayer)) ->
  exists layers' : Layers,
    showFrame window frame layers = Return layers'
    /\ dom layers' = dom layers
    /\ (forall (idLayer : string) (fl : Frame.layer) (layer : Layer),
          Frame.layers frame !! idLayer = Some fl ->
          layers !! idLayer = Some layer ->
          exists layer',
            layers' !! idLayer = Some layer'
            /\ forall a : Geometry.attr,
                 Geometry.get a (geometry layer')
                 = match FrameGeometry.own a (Frame.geometry fl) with
                   | Some v => v
                   | None => Geometry.get a (geometry layer)
                   end)
    /\ (forall (idLayer : string) (layer : Layer),
          Frame.layers frame !! idLayer = None ->
          layers !! idLayer = Some layer ->
          exists layer',
            layers' !! idLayer = Some layer'
            /\ geometry layer' = geometry layer).
Proof.
  intros Hreg. unfold showFrame.
  destruct (showFrame_loop_registered (map_to_list (Frame.layers frame)) layers)
    as (layers1 & Hrun & Hin & Hout).
  { apply NoDup_fst_map_to_list. }
  { intros idLayer fl Hmem. apply Hreg.
    apply elem_of_map_to_list in Hmem. eauto. }
  rewrite Hrun. eexists. split; [reflexivity|]. split; [|split].
  - unfold update. rewrite dom_fmap_L. apply set_eq. intros idLayer.
    rewrite !elem_of_dom.
    destruct (Frame.layers frame !! idLayer) as [fl|] eqn:Hfl.
    + rewrite (Hin idLayer fl) by by apply elem_of_map_to_list.
      by rewrite fmap_is_Some.
    + rewrite (Hout idLayer); [done|].
      intros Hmem. apply list_elem_of_fmap in Hmem as ([id' fl] & -> & Hmem).
      apply elem_of_map_to_list in Hmem. cbn in Hfl. congruence.
  - intros idLayer fl layer Hfl Hl.
    rewrite lookup_update, (Hin idLayer fl) by by apply elem_of_map_to_list.
    rewrite Hl. eexists. split; [reflexivity|].
    intros a. rewrite geometry_update_layer. unfold showFrame_layer.
    cbn [geometry]. rewrite get_copy_geometry.
    by destruct (FrameGeometry.own a (Frame.geometry fl)).
  - intros idLayer layer Hfl Hl. rewrite lookup_update, (Hout idLayer).
    + rewrite Hl. eexists. split; reflexivity.
    + intros Hmem. apply list_elem_of_fmap in Hmem as ([id' fl] & -> & Hmem).
      apply elem_of_map_to_list in Hmem. cbn in Hfl. congruence.
Qed.

Lemma partial_frame_registered (idLayer : string) :
  is_Some (Frame.layers partial_frame !! idLayer) ->
  is_Some (one_layer !! idLayer).
Proof.
  intros [fl Hfl]. cbn in Hfl.
  apply lookup_singleton_Some in Hfl as [<- _].
  rewrite lookup_one_layer. eauto.
Qed.

Lemma showFrame_copies_attributes_witness :
  exists layers' layer',
    showFrame (mkWindow 800 400) partial_frame one_layer = Return layers'
    /\ layers' !! "layer1"%string = Some layer'
    /\ Geometry.cx (geometry layer') = 10
    /\ Geometry.cy (geometry layer') = 0
    /\ Geometry.width (geometry layer') = 200
    /\ Geometry.height (geometry layer') = 100
    /\ Geometry.rotate (geometry layer') = 0
    /\ Geometry.clip (geometry layer') = true.
Proof.
  destruct (showFrame_copies_attributes (mkWindow 800 400) partial_frame
              one_layer partial_frame_registered)
    as (layers' & Hrun & _ & Hin & _).
  destruct (Hin "layer1"%string
              (Frame.mkLayer
                 (FrameGeometry.mk (Some 10) None (Some 200) (Some 100)
                                   None None))
              (onDocumentReady_layer ∅))
    as (layer' & Hl & Hget).
  { apply lookup_singleton_eq. }
  { apply lookup_one_layer. }
  exists layers', layer'. split; [exact Hrun|]. split; [exact Hl|].
  split; [exact (Hget Geometry.a_cx)|].
  split; [exact (Hget Geometry.a_cy)|].
  split; [exact (Hget Geometry.a_width)|].
  split; [exact (Hget Geometry.a_height)|].
  split; [exact (Hget Geometry.a_rotate)|].
  exact (Hget Geometry.a_clip).
Defined.

(** A frame that names an unregistered layer makes [showFrame] throw, and
    the registry is not updated. *)
Lemma showFrame_stray_frame :
  showFrame (mkWindow 800 400) stray_frame one_layer = TypeError one_layer.
Proof.
  unfold showFrame, stray_frame. cbn [Frame.layers].
  rewrite map_to_list_singleton. cbn [showFrame_loop].
  assert (Hnone : one_layer !! "layer2"%string = None).
  { unfold one_layer, onDocumentReady. cbn [foldl].
    by rewrite lookup_insert_ne. }
  by rewrite Hnone.
Qed.

(** * Further properties of the module *)

(** ** What [showFrame] returns and what it leaves behind when it throws *)

(** The registry after a [showFrame] that returns. *)
Lemma showFrame_lookup (window : Window) (frame : Frame.t) (layers : Layers) :
  (forall idLayer : string,
     is_Some (Frame.layers frame !! idLayer) -> is_Some (layers !! idLayer)) ->
  exists layers' : Layers,
    showFrame window frame layers = Return layers'
    /\ forall idLayer : string,
         layers' !! idLayer
         = update_layer window
             <$> match Frame.layers frame !! idLayer with
                 | Some fl => showFrame_layer fl <$> layers !! idLayer
                 | None => layers !! idLayer
                 end.
Proof.
  intros Hreg. unfold showFrame.
  destruct (showFrame_loop_registered (map_to_list (Frame.layers frame)) layers)
    as (layers1 & Hrun & Hin & Hout).
  { apply NoDup_fst_map_to_list. }
  { intros idLayer fl Hmem. apply Hreg.
    apply elem_of_map_to_list in Hmem. eauto. }
  rewrite Hrun. eexists. split; [reflexivity|].
  intros idLayer. rewrite lookup_update.
  destruct (Frame.layers frame !! idLayer) as [fl|] eqn:Hfl.
  - by rewrite (Hin idLayer fl) by by apply elem_of_map_to_list.
  - rewrite (Hout idLayer); [done|].
    intros Hmem. apply list_elem_of_fmap in Hmem as ([id' fl] & -> & Hmem).
    apply elem_of_map_to_list in Hmem. cbn in Hfl. congruence.
Qed.

Lemma showFrame_unregistered_stray (window : Window) (frame : Frame.t)
    (layers : Layers) (stray : string) :
  is_Some (Frame.layers frame !! stray) ->
  layers !! stray = None ->
  exists layers' : Layers, showFrame window frame layers = TypeError layers'.
Proof.
  intros [fl Hfl] Hnone. unfold showFrame.
  destruct (showFrame_loop_stray (map_to_list (Frame.layers frame)) layers)
    as (layers' & Hrun).
  { exists stray, fl. split; [by apply elem_of_map_to_list | done]. }
  rewrite Hrun. eauto.
Qed.

(** ** Showing the whole document *)

Lemma getDocumentGeometry_foldl_lookup (value : Frame.layer)
    (entries : list (string * Layer)) :
  forall (acc : gmap string Frame.layer) (idLayer : string),
    foldl (fun (result : gmap string Frame.layer) (entry : string * Layer) =>
             <[entry.1 := value]> result) acc entries !! idLayer
    = if decide (idLayer ∈ entries.*1) then Some value else acc !! idLayer.
Proof.
  induction entries as [|[id0 l0] rest IH]; intros acc idLayer.
  - cbn. case_decide as Hin; [by apply elem_of_nil in Hin | done].
  - cbn [foldl]. rewrite IH, fmap_cons. cbn [fst].
    destruct (decide (idLayer ∈ rest.*1)) as [Hin|Hnin].
    + rewrite decide_True; [done | by right].
    + destruct (decide (idLayer = id0)) as [->|Hne].
      * rewrite decide_True; [|by left]. by rewrite lookup_insert_eq.
      * rewrite decide_False, lookup_insert_ne; [done..|].
        intros Hin. apply elem_of_cons in Hin. tauto.
Qed.

Lemma getDocumentGeometry_lookup (initialBBox : SVGRect.t) (layers : Layers)
    (idLayer : string) :
  Frame.layers (getDocumentGeometry initialBBox layers) !! idLayer
  = (fun _ => getDocumentGeometry_value initialBBox) <$> layers !! idLayer.
Proof.
  unfold getDocumentGeometry. cbn [Frame.layers].
  rewrite getDocumentGeometry_foldl_lookup, lookup_empty.
  destruct (layers !! idLayer) as [layer|] eqn:Hl.
  - rewrite decide_True; [done|]. apply list_elem_of_fmap.
    exists (idLayer, layer). split; [done | by apply elem_of_map_to_list].
  - rewrite decide_False; [done|]. intros Hin.
    apply list_elem_of_fmap in Hin as ([id' layer] & -> & Hin).
    apply elem_of_map_to_list in Hin. cbn in Hl. congruence.
Qed.

(** X3: [showFrame(getDocumentGeometry())] never throws.  It keeps the set
    of layers and gives every layer the geometry of the document's bounding
    box: the centre of the box, its width and height, rotation 0 and
    [clip = false]. *)
Theorem showFrame_getDocumentGeometry (window : Window)
    (initialBBox : SVGRect.t) (layers : Layers) :
  exists layers' : Layers,
    showFrame window (getDocumentGeometry initialBBox layers) layers
    = Return layers'
    /\ dom layers' = dom layers
    /\ forall (idLayer : string) (layer' : Layer),
         layers' !! idLayer = Some layer' ->
         geometry layer'
         = Geometry.mk
             (SVGRect.x initialBBox + SVGRect.width initialBBox / 2)
             (SVGRect.y initialBBox + SVGRect.height initialBBox / 2)
             (SVGRect.width initialBBox) (SVGRect.height initialBBox) 0 false.
Proof.
  destruct (showFrame_lookup window (getDocumentGeometry initialBBox layers)
              layers) as (layers' & Hrun & Hlookup).
  { intros idLayer. rewrite getDocumentGeometry_lookup. apply fmap_is_Some. }
  exists layers'. split; [exact Hrun|].
  assert (Hl : forall idLayer : string,
            layers' !! idLayer
            = update_layer window
                <$> (showFrame_layer (getDocumentGeometry_value initialBBox)
                       <$> layers !! idLayer)).
  { intros idLayer. rewrite Hlookup, getDocumentGeometry_lookup.
    by destruct (layers !! idLayer). }
  split.
  - apply set_eq. intros idLayer.
    by rewrite !elem_of_dom, Hl, !fmap_is_Some.
  - intros idLayer layer'. rewrite Hl.
    destruct (layers !! idLayer) as [layer|]; [|discriminate].
    cbn. by intros [= <-].
Qed.

(** ** The DOM after an operation depends on the final geometry only *)

(** What [update] writes replaces what an earlier [update] wrote. *)
Lemma update_layer_overwrites (window window0 : Window) (g : Geometry.t)
    (layer : Layer) :
  update_layer window
    (mkLayer g (svgClipRect (update_layer window0 layer))
               (svgLayer (update_layer window0 layer)))
  = update_layer window (mkLayer g (svgClipRect layer) (svgLayer layer)).
Proof.
  unfold update_layer. cbn [svgClipRect svgLayer geometry].
  unfold setAttribute. f_equal.
  - apply map_eq. intros name. rewrite !lookup_insert.
    repeat case_decide; reflexivity.
  - apply map_eq. intros name. rewrite !lookup_insert.
    repeat case_decide; reflexivity.
Qed.

(** ** Positive sizes *)




(** ** Resizing *)

(** X10: [resize()] sets the attributes [width] and [height] of the root to
    the size of the window and nothing else on it, leaves the geometry of
    every layer unchanged, and a second [resize()] in the same window
    changes nothing. *)
Theorem resize_idempotent (window : Window) (svgRoot : Element)
    (layers : Layers) :
  let root' := (resize window svgRoot layers).1 in
  let layers' := (resize window svgRoot layers).2 in
  attribute_number root' "width" = Some (innerWidth window)
  /\ attribute_number root' "height" = Some (innerHeight window)
  /\ (forall name : string,
        name ∉ ["width"; "height"]%string -> root' !! name = svgRoot !! name)
  /\ geometry <$> layers' = geometry <$> layers
  /\ resize window root' layers' = (root', layers').
Proof.
  cbn. unfold attribute_number, setAttribute.
  split; [by rewrite lookup_insert_ne, lookup_insert_eq|].
  split; [by rewrite lookup_insert_eq|].
  split.
  { intros name Hname.
    rewrite !lookup_insert_ne; [reflexivity|..];
      intros <-; apply Hname; set_solver. }
  split; [apply geometry_update|].
  unfold resize, setAttribute. f_equal.
  - apply map_eq. intros name. rewrite !lookup_insert.
    repeat case_decide; reflexivity.
  - apply update_idempotent.
Qed.

(** ** The geometry of an element *)

Lemma getElementGeometry_box (svgElement : SVGElement.t) :
  let matrix := SVGElement.getCTM svgElement in
  let '(x, y, w, h) := element_box svgElement in
  let scale := sqrt (SVGMatrix.a matrix * SVGMatrix.a matrix
                     + SVGMatrix.b matrix * SVGMatrix.b matrix) in
  getElementGeometry svgElement
  = FrameGeometry.mk
      (Some (matrixTransform matrix (x + w / 2, y + h / 2)).1)
      (Some (matrixTransform matrix (x + w / 2, y + h / 2)).2)
      (Some (w * scale)) (Some (h * scale))
      (Some (js_atan2 (SVGMatrix.b matrix) (SVGMatrix.a matrix) * 180 / PI))
      None.
Proof.
  unfold getElementGeometry, element_box.
  by destruct (decide (SVGElement.nodeName svgElement = "rect"%string)).
Qed.

Lemma copy_geometry_without_clip (cx cy w h r : R) (lg : Geometry.t) :
  copy_geometry (FrameGeometry.mk (Some cx) (Some cy) (Some w) (Some h)
                                  (Some r) None) lg
  = Geometry.mk cx cy w h r (Geometry.clip lg).
Proof. reflexivity. Qed.

Lemma showFrame_element_frame (window : Window) (layers : Layers)
    (idLayer : string) (layer : Layer) (svgElement : SVGElement.t) :
  layers !! idLayer = Some layer ->
  exists layers' : Layers,
    showFrame window (element_frame idLayer svgElement) layers = Return layers'
    /\ layers' !! idLayer
       = Some (update_layer window
                 (showFrame_layer
                    (Frame.mkLayer (getElementGeometry svgElement)) layer))
    /\ forall other : string,
         other <> idLayer ->
         layers' !! other = update_layer window <$> layers !! other.
Proof.
  intros Hl.
  destruct (showFrame_lookup window (element_frame idLayer svgElement) layers)
    as (layers' & Hrun & Hlookup).
  { intros id' [fl Hfl]. cbn in Hfl.
    apply lookup_singleton_Some in Hfl as [<- _]. eauto. }
  exists layers'. split; [exact Hrun|]. split.
  - rewrite Hlookup. cbn [element_frame Frame.layers].
    by rewrite lookup_singleton_eq, Hl.
  - intros other Hne. rewrite Hlookup. cbn [element_frame Frame.layers].
    by rewrite lookup_singleton_ne.
Qed.

(** X16: the geometry that [getElementGeometry] returns has the attributes
    [cx], [cy], [width], [height] and [rotate] and no [clip]: showing it on
    a registered layer gives the layer these five values and keeps the clip
    flag that the layer had, and leaves the geometry of the other layers
    alone. *)
Theorem showFrame_element_keeps_clip (window : Window) (layers : Layers)
    (idLayer : string) (layer : Layer) (svgElement : SVGElement.t) :
  layers !! idLayer = Some layer ->
  exists (layers' : Layers) (layer' : Layer),
    showFrame window (element_frame idLayer svgElement) layers = Return layers'
    /\ layers' !! idLayer = Some layer'
    /\ FrameGeometry.clip (getElementGeometry svgElement) = None
    /\ Geometry.clip (geometry layer') = Geometry.clip (geometry layer)
    /\ FrameGeometry.cx (getElementGeometry svgElement)
       = Some (Geometry.cx (geometry layer'))
    /\ FrameGeometry.cy (getElementGeometry svgElement)
       = Some (Geometry.cy (geometry layer'))
    /\ FrameGeometry.width (getElementGeometry svgElement)
       = Some (Geometry.width (geometry layer'))
    /\ FrameGeometry.height (getElementGeometry svgElement)
       = Some (Geometry.height (geometry layer'))
    /\ FrameGeometry.rotate (getElementGeometry svgElement)
       = Some (Geometry.rotate (geometry layer'))
    /\ forall (other : string) (layer0 : Layer),
         other <> idLayer ->
         layers !! other = Some layer0 ->
         geometry <$> layers' !! other = Some (geometry layer0).
Proof.
  intros Hl.
  destruct (showFrame_element_frame window layers idLayer layer svgElement Hl)
    as (layers' & Hrun & Hid & Hother).
  exists layers'. eexists. split; [exact Hrun|]. split; [exact Hid|].
  rewrite geometry_update_layer. unfold showFrame_layer.
  cbn [geometry Frame.geometry].
  pose proof (getElementGeometry_box svgElement) as Hbox. cbn zeta in Hbox.
  destruct (element_box svgElement) as [[[x y] w] h].
  rewrite Hbox, copy_geometry_without_clip.
  do 7 (split; [reflexivity|]).
  intros other layer0 Hne Hl0. by rewrite (Hother other Hne), Hl0.
Qed.

Lemma showFrame_element_keeps_clip_witness :
  exists (layers' : Layers) (layer' : Layer),
    showFrame (mkWindow 800 400)
      (element_frame "layer1"
         (SVGElement.mk "rect" 10 20 200 100 (SVGRect.mk 10 20 200 100)
                        (SVGMatrix.mk 1 0 0 1 0 0)))
      one_layer = Return layers'
    /\ layers' !! "layer1"%string = Some layer'
    /\ Geometry.clip (geometry layer') = true.
Proof.
  destruct (showFrame_element_keeps_clip (mkWindow 800 400) one_layer
              "layer1"%string (onDocumentReady_layer ∅)
              (SVGElement.mk "rect" 10 20 200 100 (SVGRect.mk 10 20 200 100)
                             (SVGMatrix.mk 1 0 0 1 0 0))
              lookup_one_layer)
    as (layers' & layer' & Hrun & Hl & _ & Hclip & _).
  exists layers', layer'. split; [exact Hrun|]. split; [exact Hl|exact Hclip].
Defined.

(** ** Showing a frame twice *)

Lemma copy_geometry_idempotent (fg : FrameGeometry.t) (lg : Geometry.t) :
  copy_geometry fg (copy_geometry fg lg) = copy_geometry fg lg.
Proof. destruct fg as [[?|] [?|] [?|] [?|] [?|] [?|]]; reflexivity. Qed.

Lemma showFrame_layer_after_update (window window0 : Window)
    (fl : Frame.layer) (layer : Layer) :
  update_layer window (showFrame_layer fl (update_layer window0 layer))
  = update_layer window (showFrame_layer fl layer).
Proof.
  exact (update_layer_overwrites window window0
           (geometry (showFrame_layer fl layer)) layer).
Qed.

(** X20: [showFrame] is idempotent: when [showFrame(f)] returns, a second
    [showFrame(f)] in the same window returns the same registry, DOM
    attributes included. *)
Theorem showFrame_twice (window : Window) (frame : Frame.t)
    (layers layers' : Layers) :
  showFrame window frame layers = Return layers' ->
  showFrame window frame layers' = Return layers'.
Proof.
  intros Hrun.
  assert (Hreg : forall idLayer : string,
            is_Some (Frame.layers frame !! idLayer) ->
            is_Some (layers !! idLayer)).
  { intros idLayer [fl Hfl].
    destruct (layers !! idLayer) as [layer|] eqn:Hl; [eauto|].
    destruct (showFrame_unregistered_stray window frame layers idLayer)
      as (bad & Hbad); [eauto | done | congruence]. }
  destruct (showFrame_lookup window frame layers Hreg)
    as (layers1 & Hrun1 & Hlookup1).
  assert (layers1 = layers') as -> by congruence.
  destruct (showFrame_lookup window frame layers')
    as (layers2 & Hrun2 & Hlookup2).
  { intros idLayer Hfl. rewrite Hlookup1.
    destruct Hfl as [fl Hfl]. rewrite Hfl, !fmap_is_Some.
    apply Hreg. eauto. }
  rewrite Hrun2. f_equal. apply map_eq. intros idLayer.
  rewrite Hlookup2, Hlookup1.
  destruct (Frame.layers frame !! idLayer) as [fl|],
           (layers !! idLayer) as [layer|]; cbn; try reflexivity.
  - f_equal. rewrite showFrame_layer_after_update.
    unfold showFrame_layer. cbn [geometry svgClipRect svgLayer].
    by rewrite copy_geometry_idempotent.
  - f_equal. apply update_layer_idempotent.
Qed.

Lemma showFrame_twice_witness :
  exists layers' : Layers,
    showFrame (mkWindow 800 400) partial_frame one_layer = Return layers'
    /\ showFrame (mkWindow 800 400) partial_frame layers' = Return layers'.
Proof.
  destruct (showFrame_lookup (mkWindow 800 400) partial_frame one_layer
              partial_frame_registered) as (layers' & Hrun & _).
  exists layers'. split; [exact Hrun|].
  exact (showFrame_twice (mkWindow 800 400) partial_frame one_layer layers'
           Hrun).
Defined.

(** ** Rotating by nothing *)

Lemma js_rem_small (a n : R) : - n < a < n -> js_rem a n = a.
Proof.
  intros [Hlo Hhi]. assert (Hn : 0 < n) by lra.
  unfold js_rem, js_trunc.
  destruct (Rle_dec 0 (a / n)) as [Hq|Hq].
  - assert (Hk : Int_part (a / n) = 0%Z).
    { symmetry. apply Int_part_spec. split; [|exact Hq].
      assert (a / n < 1); [|lra].
      apply (Rmult_lt_reg_r n); [lra|]. unfold Rdiv.
      rewrite Rmult_assoc, Rinv_l by lra. lra. }
    rewrite Hk. lra.
  - assert (Hk : Int_part (- (a / n)) = 0%Z).
    { symmetry. apply Int_part_spec. split; [|lra].
      assert (- (a / n) < 1); [|lra].
      apply (Rmult_lt_reg_r n); [lra|]. unfold Rdiv.
      rewrite Ropp_mult_distr_l, Rmult_assoc, Rinv_l by lra. lra. }
    rewrite Hk. change (- 0)%Z with 0%Z. lra.
Qed.

(** X23: [rotate(0)] changes nothing once the rotations have been
    normalised: after any [rotate(angle)], a [rotate(0)] in the same window
    leaves the registry, DOM attributes included, as it is. *)
Theorem rotate_0_after_rotate (window : Window) (angle : R) (layers : Layers) :
  rotate window 0 (rotate window angle layers) = rotate window angle layers.
Proof.
  unfold rotate, update. rewrite <- !map_fmap_compose.
  apply map_fmap_ext. intros idLayer layer _. unfold compose.
  transitivity (update_layer window
                  (rotate_layer 0 (rotate_layer angle layer))).
  - exact (update_layer_overwrites window window
             (geometry (rotate_layer 0 (rotate_layer angle layer)))
             (rotate_layer angle layer)).
  - f_equal. unfold rotate_layer.
    cbn [geometry svgClipRect svgLayer Geometry.cx Geometry.cy Geometry.width
         Geometry.height Geometry.rotate Geometry.clip].
    f_equal. f_equal. rewrite Rplus_0_r.
    apply js_rem_small. apply js_rem_bounded. lra.
Qed.
